(** * seq2seq.tasks.training_task: the TrainingTask configuration dispatcher

    A shallow embedding of [src/seq2seq/tasks/training_task.py].  The class
    resolves a model class name, keeps a merged configuration dictionary,
    and builds models, training hooks and metric tables from it.

    Python values are a small universe of data (None, booleans, integers,
    strings, lists, insertion-ordered dictionaries with string keys) and of
    objects reached by import and attribute lookup (modules, classes,
    functions, instances).  Everything the file imports and does not define
    (the import system behind [pydoc.locate], attribute lookup, constructors
    of model and hook classes, [Configurable], [METRIC_SPECS_DICT]) is
    gathered in an [environment]. *)

From Stdlib Require Import String Ascii.
From stdpp Require Import base option list strings gmap.

Open Scope string_scope.

(** ** Python values *)

#[local] Set Warnings "-register-all".

Inductive value : Type :=
| VNone
| VBool (b : bool)
| VInt (z : Z)
| VStr (s : string)
| VList (l : list value)
| VDict (d : list (string * value))
| VModule (name : string)
| VClass (name : string)
| VFunction (name : string)
| VInstance (cls : string) (id : nat)
            (args : list value) (kwargs : list (string * value)).

(** Exceptions the dispatcher can raise or let through. *)
Inductive exn : Type :=
| AttributeError (name : string)
| KeyError (key : value)
| TypeError (what : string)
| ValueError (what : string)
| ErrorDuringImport (path : string).

Inductive result (A : Type) : Type :=
| Ok (a : A)
| Raise (e : exn).
Arguments Ok {A} a.
Arguments Raise {A} e.

#[global] Instance result_ret : MRet result := fun _ a => Ok a.
#[global] Instance result_bind : MBind result := fun _ _ f r =>
  match r with
  | Ok a => f a
  | Raise e => Raise e
  end.

Definition is_ok {A} (r : result A) : bool :=
  match r with Ok _ => true | Raise _ => false end.

(** ** Dictionaries: insertion-ordered association lists *)

Fixpoint dict_get (d : list (string * value)) (k : string) : option value :=
  match d with
  | [] => None
  | (k', v) :: d' => if decide (k' = k) then Some v else dict_get d' k
  end.

(** [d[k] = v]: an existing key keeps its position, a new key goes last.
    This is the order of CPython 3.7 and later; older interpreters leave
    the order of a dictionary open, and the dictionary that
    [create_metrics] builds is described through [dict_get] and membership
    in [dict_keys], not through that order. *)
Fixpoint dict_set (d : list (string * value)) (k : string) (v : value)
  : list (string * value) :=
  match d with
  | [] => [(k, v)]
  | (k', v') :: d' =>
      if decide (k' = k) then (k, v) :: d' else (k', v') :: dict_set d' k v
  end.

Definition dict_keys (d : list (string * value)) : list string := d.*1.

(** ** Primitive operations of the language *)

(** [bool(v)]: the truth value tested by [or] and [if]. *)
Definition truthy (v : value) : bool :=
  match v with
  | VNone => false
  | VBool b => b
  | VInt z => negb (Z.eqb z 0)
  | VStr s => negb (String.eqb s "")
  | VList l => negb (bool_decide (l = []))
  | VDict d => match d with [] => false | _ => true end
  | VModule _ | VClass _ | VFunction _ | VInstance _ _ _ _ => true
  end.

(** [v[k]] for a string key [k]. *)
Definition getitem (v : value) (k : string) : result value :=
  match v with
  | VDict d =>
      match dict_get d k with
      | Some x => Ok x
      | None => Raise (KeyError (VStr k))
      end
  | VStr _ | VList _ => Raise (TypeError "indices must be integers")
  | _ => Raise (TypeError "object is not subscriptable")
  end.

Fixpoint chars (s : string) : list value :=
  match s with
  | EmptyString => []
  | String c s' => VStr (String c EmptyString) :: chars s'
  end.

(** The elements a [for] loop visits. *)
Definition iterate (v : value) : result (list value) :=
  match v with
  | VList l => Ok l
  | VDict d => Ok (VStr <$> dict_keys d)
  | VStr s => Ok (chars s)
  | _ => Raise (TypeError "object is not iterable")
  end.

(** [path.split('.')]. *)
Fixpoint split_dot (s : string) : list string :=
  match s with
  | EmptyString => [EmptyString]
  | String c s' =>
      if Ascii.eqb c "."%char then EmptyString :: split_dot s'
      else match split_dot s' with
           | [] => [String c EmptyString]
           | p :: ps => String c p :: ps
           end
  end.

(** ['.'.join(parts)]. *)
Definition join_dot (parts : list string) : string := String.concat "." parts.

(** ** The environment

    What the module imports.  [safeimport] is [pydoc.safeimport]: the module
    of that dotted name, [VNone] when there is none, or [ErrorDuringImport].
    [getattr] is attribute lookup, [None] standing for [AttributeError].
    [construct] runs the [__init__] of a class on arguments and tells the
    exception it raises, if any.  [call_function] applies a function.

    [parse_params user defaults] is the merge of a user's dictionary with
    defaults that [Configurable], the base class, performs: the merged
    dictionary, or the exception validation raises.

    [PrintModelAnalysisHook_default_params] and
    [MetadataCaptureHook_default_params] are what the static methods
    [default_params()] of the two hook classes of [seq2seq.training.hooks]
    return. *)

Record environment : Type := {
  safeimport : string -> result value;
  getattr : value -> string -> option value;
  construct : string -> list value -> list (string * value) -> option exn;
  call_function : string -> list value -> list (string * value) -> result value;
  parse_params : value -> value -> result value;
  METRIC_SPECS_DICT : gmap string value;
  PrintModelAnalysisHook_default_params : value;
  MetadataCaptureHook_default_params : value
}.

Definition builtins : value := VModule "builtins".
Definition models : value := VModule "seq2seq.models".
Definition hooks : value := VModule "seq2seq.training.hooks".

Section Locate.
Context (E : environment).

(** The [while] loop of [pydoc.locate]: import the longest prefix of
    [parts] that is a module.  [rest] is [parts[n:]], so the loop ends
    when it is empty. *)
Fixpoint locate_import (parts rest : list string) (module : value) (n : nat)
  : result (value * nat) :=
  match rest with
  | [] => Ok (module, n)
  | _ :: rest' =>
      nextmodule ← safeimport E (join_dot (take (S n) parts));
      if truthy nextmodule
      then locate_import parts rest' nextmodule (S n)
      else Ok (module, n)
  end.

(** The final [for] loop of [pydoc.locate]: follow the remaining parts as
    attributes; a missing attribute makes the whole lookup [None]. *)
Fixpoint locate_attrs (object : value) (parts : list string) : value :=
  match parts with
  | [] => object
  | part :: parts' =>
      match getattr E object part with
      | Some o => locate_attrs o parts'
      | None => VNone
      end
  end.

(** [pydoc.locate(path)], from the standard library's [pydoc.py]. *)
Definition locate (path : string) : result value :=
  let parts := filter (fun part => part <> "") (split_dot path) in
  '(module, n) ← locate_import parts parts VNone 0;
  let object := if truthy module then module else builtins in
  Ok (locate_attrs object (drop n parts)).

(** [locate(name) or getattr(module, name)], the expression that resolves
    both the model class and each hook class.  A value that is not a
    string has no [split] method, which [locate] calls first. *)
Definition locate_or_getattr (module : value) (name : value) : result value :=
  match name with
  | VStr s =>
      found ← locate s;
      if truthy found then Ok found
      else match getattr E module s with
           | Some o => Ok o
           | None => Raise (AttributeError s)
           end
  | _ => Raise (AttributeError "split")
  end.
End Locate.

(** Modelled from the spec: the constructor of [Configurable], the base
    class, which the file calls and does not define.  It is said to "merge
    and validate a configuration dictionary": [self.params] becomes the
    merge of the user's [params] with the [default_params()] of the class,
    unless validation raises. *)
Definition Configurable_init (E : environment) (params defaults : value)
  : result value :=
  parse_params E params defaults.

(** ** Effects: the task, fresh object identities, exceptions

    A method runs on a [state]: the task object [self] it is called on and
    the next unused object identity.  An exception leaves the state as it
    was when it was raised. *)

Module TrainingTask.

(** The attributes of an instance: [params], the merged configuration that
    [Configurable] keeps, and [_model_cls]. *)
Record task : Type := { params : value; _model_cls : value }.

Record state : Type := { self : task; next_id : nat }.

Definition M (A : Type) : Type := state -> result A * state.

#[global] Instance M_ret : MRet M := fun _ a st => (Ok a, st).
#[global] Instance M_bind : MBind M := fun _ _ f m st =>
  match m st with
  | (Ok a, st') => f a st'
  | (Raise e, st') => (Raise e, st')
  end.

Definition lift {A} (r : result A) : M A := fun st => (r, st).
Definition get_self : M task := fun st => (Ok (self st), st).
Definition fresh_id : M nat := fun st =>
  (Ok (next_id st), {| self := self st; next_id := S (next_id st) |}).

Section Methods.
Context (E : environment).

(** A call [f(...)] with positional and keyword arguments.  Calling a
    class runs its constructor and, unless that raises, yields an instance
    with a fresh identity; the instance records what it was built from.
    Values are immutable here: a constructor reads its arguments. *)
Definition call (f : value) (args : list value)
    (kwargs : list (string * value)) : M value :=
  match f with
  | VClass c =>
      match construct E c args kwargs with
      | Some e => lift (Raise e)
      | None => id ← fresh_id; mret (VInstance c id args kwargs)
      end
  | VFunction g => lift (call_function E g args kwargs)
  | _ => lift (Raise (TypeError "object is not callable"))
  end.

(** [o.name]. *)
Definition attribute (o : value) (name : string) : result value :=
  match getattr E o name with
  | Some v => Ok v
  | None => Raise (AttributeError name)
  end.

Definition default_params : value :=
  VDict [
    ("metrics", VList []);
    ("model_class", VStr "");
    ("model_params", VDict []);
    ("hooks", VList [
      VDict [
        ("class", VStr "PrintModelAnalysisHook");
        ("params", PrintModelAnalysisHook_default_params E)
      ];
      VDict [
        ("class", VStr "MetadataCaptureHook");
        ("params", MetadataCaptureHook_default_params E)
      ]
    ])
  ].

(** [TrainingTask(params)]: the instance [__init__] leaves behind, or the
    exception it raises.  [super().__init__(params, None)] merges
    [params] with [default_params()]; subscripting [self.params] twice
    gives the same string, read once here. *)
Definition __init__ (user_params : value) : result task :=
  merged ← Configurable_init E user_params default_params;
  model_class ← getitem merged "model_class";
  cls ← locate_or_getattr E models model_class;
  mret {| params := merged; _model_cls := cls |}.

Definition create_model (mode : value) : M value :=
  t ← get_self;
  model_params ← lift (getitem (params t) "model_params");
  call (_model_cls t) [] [("params", model_params); ("mode", mode)].

(** The body of the [for] loop of [create_training_hooks], over the
    entries still to visit. *)
Fixpoint hooks_loop (estimator : value) (entries : list value)
    (training_hooks : list value) : M (list value) :=
  match entries with
  | [] => mret training_hooks
  | hook_dict :: entries' =>
      name ← lift (getitem hook_dict "class");
      hook_cls ← lift (locate_or_getattr E hooks name);
      hook_params ← lift (getitem hook_dict "params");
      model_dir ← lift (attribute estimator "model_dir");
      hook ← call hook_cls [hook_params; model_dir] [];
      hooks_loop estimator entries' (training_hooks ++ [hook])
  end.

Definition create_training_hooks (estimator : value) : M value :=
  t ← get_self;
  configured ← lift (getitem (params t) "hooks");
  entries ← lift (iterate configured);
  training_hooks ← hooks_loop estimator entries [];
  mret (VList training_hooks).

(** [METRIC_SPECS_DICT[m]]: lists and dictionaries are unhashable, any
    other key that is not a string of the table is missing. *)
Definition metric_spec (m : value) : result (string * value) :=
  match m with
  | VStr k =>
      match METRIC_SPECS_DICT E !! k with
      | Some spec => Ok (k, spec)
      | None => Raise (KeyError m)
      end
  | VList _ | VDict _ => Raise (TypeError "unhashable type")
  | _ => Raise (KeyError m)
  end.

(** The dictionary comprehension of [create_metrics]. *)
Fixpoint metrics_loop (ms : list value) (acc : list (string * value))
  : result (list (string * value)) :=
  match ms with
  | [] => Ok acc
  | m :: ms' =>
      '(k, spec) ← metric_spec m;
      metrics_loop ms' (dict_set acc k spec)
  end.

Definition create_metrics : M value :=
  t ← get_self;
  metrics ← lift (getitem (params t) "metrics");
  ms ← lift (iterate metrics);
  d ← lift (metrics_loop ms []);
  mret (VDict d).
End Methods.

End TrainingTask.

(** ** A small installation to run the model on

    Modules [seq2seq], [seq2seq.models], [seq2seq.training] and
    [seq2seq.training.hooks] import; the models module holds two classes and
    the hooks module the two default hooks. *)

Module Fixture.

Definition importable (path : string) : result value :=
  if bool_decide (path ∈ ["seq2seq"; "seq2seq.models"; "seq2seq.training";
                          "seq2seq.training.hooks"])
  then Ok (VModule path) else Ok VNone.

Definition attributes (o : value) (name : string) : option value :=
  match o with
  | VModule m =>
      if bool_decide ((m, name) ∈
           [("seq2seq.models", "BasicSeq2Seq");
            ("seq2seq.models", "AttentionSeq2Seq");
            ("seq2seq.training.hooks", "PrintModelAnalysisHook");
            ("seq2seq.training.hooks", "MetadataCaptureHook")])
      then Some (VClass (m +:+ "." +:+ name))
      else if bool_decide ((m, name) ∈
           [("seq2seq", "models"); ("seq2seq", "training");
            ("seq2seq.training", "hooks")])
      then Some (VModule (m +:+ "." +:+ name))
      else None
  | VInstance "Estimator" _ _ kwargs =>
      if bool_decide (name = "model_dir") then dict_get kwargs name else None
  | _ => None
  end.

(** Modelled from the spec: [Configurable]'s handling of [params], which
    the file only inherits, "merge and validate a configuration
    dictionary": entries of the user's dictionary replace the defaults of
    the same key, and a key the defaults do not have is rejected. *)
Fixpoint merge_params (user defaults : list (string * value))
  : result (list (string * value)) :=
  match user with
  | [] => Ok defaults
  | (k, v) :: user' =>
      match dict_get defaults k with
      | Some _ => merge_params user' (dict_set defaults k v)
      | None => Raise (ValueError k)
      end
  end.

Definition merge (user defaults : value) : result value :=
  match user, defaults with
  | VDict u, VDict d => m ← merge_params u d; mret (VDict m)
  | VNone, VDict d => Ok defaults
  | _, _ => Raise (TypeError "params must be a dictionary")
  end.

Definition metric (name : string) : value :=
  VInstance "MetricSpec" 0 [] [("name", VStr name)].

Definition env : environment := {|
  safeimport := importable;
  getattr := attributes;
  construct := fun _ _ _ => None;
  call_function := fun _ _ _ => Raise (TypeError "bad arguments");
  parse_params := merge;
  METRIC_SPECS_DICT :=
    {[ "bleu" := metric "bleu"; "log_perplexity" := metric "log_perplexity" ]};
  PrintModelAnalysisHook_default_params := VDict [];
  MetadataCaptureHook_default_params := VDict [("step", VInt 10)]
|}.

Definition estimator : value :=
  VInstance "Estimator" 0 [] [("model_dir", VStr "/tmp/model")].

(** Configurations: a class given by its dotted path, by its bare name,
    a name nothing answers to, and the path of a module. *)
Definition by_path : value :=
  VDict [("model_class", VStr "seq2seq.models.AttentionSeq2Seq")].
Definition by_name : value :=
  VDict [("model_class", VStr "BasicSeq2Seq")].
Definition misspelt : value :=
  VDict [("model_class", VStr "BasicSeq2Sec")].
Definition module_path : value :=
  VDict [("model_class", VStr "seq2seq.models")].

(** A configuration that names the package instead of a class. *)
Definition package_path : value :=
  VDict [("model_class", VStr "seq2seq")].

(** The dictionary the constructor keeps for a user dictionary [user];
    the defaults themselves when merging fails. *)
Definition merged_of (user : value) : value :=
  match merge user (TrainingTask.default_params env) with
  | Ok merged => merged
  | Raise _ => TrainingTask.default_params env
  end.

Definition merged_with (model_class : string) (metrics : list string)
  : value :=
  VDict [
    ("metrics", VList (VStr <$> metrics));
    ("model_class", VStr model_class);
    ("model_params", VDict [("embedding.dim", VInt 128)]);
    ("hooks", VList [
      VDict [("class", VStr "PrintModelAnalysisHook"); ("params", VDict [])];
      VDict [("class", VStr "seq2seq.training.hooks.MetadataCaptureHook");
             ("params", VDict [("step", VInt 10)])]
    ])
  ].

(** A task on [BasicSeq2Seq] watching the given metrics, after three
    objects have been created. *)
Definition configured (metrics : list string) : TrainingTask.state := {|
  TrainingTask.self := {|
    TrainingTask.params := merged_with "BasicSeq2Seq" metrics;
    TrainingTask._model_cls := VClass "seq2seq.models.BasicSeq2Seq"
  |};
  TrainingTask.next_id := 3
|}.

(** An installation where a file [AttentionSeq2Seq.py] lies on the path
    and fails while it is imported. *)
Definition env_broken_import : environment := {|
  safeimport := fun path =>
    if bool_decide (path = "AttentionSeq2Seq")
    then Raise (ErrorDuringImport path) else importable path;
  getattr := attributes;
  construct := fun _ _ _ => None;
  call_function := fun _ _ _ => Raise (TypeError "bad arguments");
  parse_params := merge;
  METRIC_SPECS_DICT :=
    {[ "bleu" := metric "bleu"; "log_perplexity" := metric "log_perplexity" ]};
  PrintModelAnalysisHook_default_params := VDict [];
  MetadataCaptureHook_default_params := VDict [("step", VInt 10)]
|}.

Definition by_attention_name : value :=
  VDict [("model_class", VStr "AttentionSeq2Seq")].

(** Hook entries: one of the hooks module, and one that names no class. *)
Definition print_hook : value :=
  VDict [("class", VStr "PrintModelAnalysisHook"); ("params", VDict [])].
Definition unknown_hook : value :=
  VDict [("class", VStr "EarlyStoppingHook"); ("params", VDict [])].

(** An entry of the hooks module that leaves out its ['params']. *)
Definition hook_without_params : value :=
  VDict [("class", VStr "PrintModelAnalysisHook")].

(** A task with the given ['hooks'] value, after three objects have been
    created. *)
Definition with_hooks (configured : value) : TrainingTask.state := {|
  TrainingTask.self := {|
    TrainingTask.params := VDict [("hooks", configured)];
    TrainingTask._model_cls := VClass "seq2seq.models.BasicSeq2Seq"
  |};
  TrainingTask.next_id := 3
|}.

(** The task that the defaults alone make. *)
Definition default_task : TrainingTask.state := {|
  TrainingTask.self := {|
    TrainingTask.params := TrainingTask.default_params env;
    TrainingTask._model_cls := builtins
  |};
  TrainingTask.next_id := 0
|}.

End Fixture.

(** ** Vocabulary of the statements *)

Import TrainingTask.

(** A computation that leaves the task object as it found it, whether it
    returns or raises. *)
Definition preserves_self {A} (m : M A) : Prop :=
  forall st, self (m st).2 = self st.

(** A metric name the table of metric specifications has an entry for. *)
Definition known (E : environment) (m : string) : Prop :=
  is_Some (METRIC_SPECS_DICT E !! m).

(** A configured hook entry [entry] that can be built: it names a class
    [spec.1], found by [locate] or in the hooks module, whose constructor
    accepts the entry's parameters [spec.2] and the model directory. *)
Definition hook_entry (E : environment) (model_dir : value)
    (entry : value) (spec : string * value) : Prop :=
  exists name,
    getitem entry "class" = Ok (VStr name) /\
    getitem entry "params" = Ok spec.2 /\
    locate_or_getattr E hooks (VStr name) = Ok (VClass spec.1) /\
    construct E spec.1 [spec.2; model_dir] [] = None.

(** The configured name resolves, and what it resolves to is a class. *)
Definition resolves_to_class (E : environment) (name : value) : Prop :=
  exists cls, locate_or_getattr E models name = Ok (VClass cls).

(** The hooks built for the classes and parameters [specs], in order, the
    first one with identity [first_id]. *)
Fixpoint built_hooks (first_id : nat) (model_dir : value)
    (specs : list (string * value)) : list value :=
  match specs with
  | [] => []
  | (cls, hook_params) :: specs' =>
      VInstance cls first_id [hook_params; model_dir] []
        :: built_hooks (S first_id) model_dir specs'
  end.

(** A name without a dot: one component of a dotted path. *)
Fixpoint dotless (s : string) : bool :=
  match s with
  | EmptyString => true
  | String c s' => negb (Ascii.eqb c "."%char) && dotless s'
  end.

(** A non-empty name without a dot. *)
Definition component (s : string) : Prop := dotless s = true /\ s <> "".

(** The identity of an instance. *)
Definition identity (v : value) : option nat :=
  match v with
  | VInstance _ id _ _ => Some id
  | _ => None
  end.

(** A bare name that only the module [module] answers to: it is not an
    importable module and not a builtin, and [module] has it as [o]. *)
Definition fallback_only (E : environment) (module : value) (name : string)
    (o : value) : Prop :=
  component name /\
  (exists found, safeimport E name = Ok found /\ truthy found = false) /\
  getattr E builtins name = None /\
  getattr E module name = Some o.

(** ** Dictionaries *)

Lemma dict_get_set d k v k' :
  dict_get (dict_set d k v) k' =
    if decide (k = k') then Some v else dict_get d k'.
Proof.
  induction d as [|[k0 v0] d IH]; simpl.
  - destruct (decide (k = k')); reflexivity.
  - destruct (decide (k0 = k)) as [->|Hne]; simpl.
    + destruct (decide (k = k')); reflexivity.
    + rewrite IH.
      destruct (decide (k0 = k')) as [->|]; [|reflexivity].
      destruct (decide (k = k')); congruence.
Qed.

Lemma dict_keys_set d k v :
  dict_keys (dict_set d k v) =
    if decide (k ∈ dict_keys d) then dict_keys d
    else (dict_keys d ++ [k])%list.
Proof.
  unfold dict_keys. induction d as [|[k0 v0] d IH].
  - rewrite decide_False by apply not_elem_of_nil. reflexivity.
  - cbn [dict_set]. destruct (decide (k0 = k)) as [->|Hne].
    + rewrite decide_True by apply list_elem_of_here. reflexivity.
    + rewrite !fmap_cons, IH. cbn [fst].
      destruct (decide (k ∈ d.*1)) as [Hin|Hnin].
      * rewrite decide_True by (by apply list_elem_of_further). reflexivity.
      * rewrite decide_False; [reflexivity|].
        rewrite elem_of_cons. intros [->|?]; done.
Qed.

Lemma dict_get_None d k : dict_get d k = None <-> k ∉ dict_keys d.
Proof.
  unfold dict_keys. induction d as [|[k0 v0] d IH]; simpl.
  - split; [intros _; apply not_elem_of_nil | done].
  - rewrite not_elem_of_cons. destruct (decide (k0 = k)) as [->|Hne].
    + split; [done | intros [? _]; done].
    + rewrite IH. split; [|intros [_ ?]; done].
      intros ?; split; [congruence | done].
Qed.

(** ** The frame: what a method leaves alone *)

Create HintDb frame.

Lemma preserves_ret {A} (a : A) : preserves_self (mret a : M A).
Proof. intros st. reflexivity. Qed.

Lemma preserves_lift {A} (r : result A) : preserves_self (lift r).
Proof. intros st. reflexivity. Qed.

Lemma preserves_get_self : preserves_self get_self.
Proof. intros st. reflexivity. Qed.

Lemma preserves_fresh_id : preserves_self fresh_id.
Proof. intros st. reflexivity. Qed.

Lemma preserves_bind {A B} (m : M A) (f : A -> M B) :
  preserves_self m -> (forall a, preserves_self (f a)) ->
  preserves_self (m ≫= f).
Proof.
  intros Hm Hf st. unfold mbind, M_bind.
  specialize (Hm st). destruct (m st) as [[a|e] st']; simpl in *.
  - rewrite (Hf a st'). exact Hm.
  - exact Hm.
Qed.

#[global] Hint Resolve preserves_ret preserves_lift preserves_get_self
  preserves_fresh_id : frame.

Ltac frame_step :=
  first [ apply preserves_bind; [|intros ?] | solve [auto with frame] ].

Lemma preserves_call E f args kwargs : preserves_self (call E f args kwargs).
Proof.
  destruct f; simpl; auto with frame.
  destruct (construct E name args kwargs); repeat frame_step.
Qed.

#[global] Hint Resolve preserves_call : frame.

Lemma preserves_hooks_loop E estimator entries acc :
  preserves_self (hooks_loop E estimator entries acc).
Proof.
  revert acc. induction entries as [|entry entries IH]; intros acc; simpl.
  - auto with frame.
  - repeat (apply preserves_bind; [auto with frame | intros ?]). apply IH.
Qed.

#[global] Hint Resolve preserves_hooks_loop : frame.

(** ** Running a computation step by step *)

Lemma bind_lift_ok {A B} (r : result A) (a : A) (f : A -> M B) st :
  r = Ok a -> (lift r ≫= f) st = f a st.
Proof. intros ->. reflexivity. Qed.

Lemma bind_lift_raise {A B} (r : result A) (e : exn) (f : A -> M B) st :
  r = Raise e -> (lift r ≫= f) st = (Raise e, st).
Proof. intros ->. reflexivity. Qed.

Lemma bind_get_self {B} (f : task -> M B) st :
  (get_self ≫= f) st = f (self st) st.
Proof. reflexivity. Qed.

Lemma call_class E cls args kwargs st :
  construct E cls args kwargs = None ->
  call E (VClass cls) args kwargs st =
    (Ok (VInstance cls (next_id st) args kwargs),
     {| self := self st; next_id := S (next_id st) |}).
Proof. intros H. unfold call. rewrite H. reflexivity. Qed.

Lemma bind_ok {A B} (m : M A) (a : A) (f : A -> M B) st st' :
  m st = (Ok a, st') -> (m ≫= f) st = f a st'.
Proof. intros H. unfold mbind, M_bind. rewrite H. reflexivity. Qed.

(** C9: [create_model], [create_training_hooks] and [create_metrics] leave
    the task's own state alone: whatever the environment, the arguments and
    the outcome (a result or an exception), [self.params] and
    [self._model_cls] are after the call what they were before it. *)
Theorem methods_preserve_self E mode estimator :
  preserves_self (create_model E mode) /\
  preserves_self (create_training_hooks E estimator) /\
  preserves_self (create_metrics E).
Proof.
  unfold create_model, create_training_hooks, create_metrics.
  repeat split; repeat frame_step.
Qed.

(** ** Metrics *)

Section Metrics.
Context (E : environment).

Lemma metrics_loop_known names : forall acc,
  Forall (known E) names ->
  exists d,
    metrics_loop E (VStr <$> names) acc = Ok d /\
    (forall k, dict_get d k =
       if decide (k ∈ names) then METRIC_SPECS_DICT E !! k
       else dict_get acc k) /\
    (NoDup (dict_keys acc) -> NoDup (dict_keys d)).
Proof.
  induction names as [|m names IH]; intros acc Hall.
  - exists acc. split; [reflexivity|]. split; [|done].
    intros k. rewrite decide_False by apply not_elem_of_nil. reflexivity.
  - apply Forall_cons in Hall as [[spec Hspec] Hall].
    destruct (IH (dict_set acc m spec) Hall) as (d & Hrun & Hget & Hnd).
    exists d. split; [|split].
    + cbn. rewrite Hspec. exact Hrun.
    + intros k. rewrite Hget, dict_get_set.
      destruct (decide (k ∈ names)) as [Hin|Hnin].
      * rewrite decide_True by (by apply list_elem_of_further). reflexivity.
      * destruct (decide (m = k)) as [->|Hne].
        -- rewrite decide_True by apply list_elem_of_here. by rewrite Hspec.
        -- rewrite decide_False; [reflexivity|].
           intros [->|?]%elem_of_cons; done.
    + intros Hacc. apply Hnd. rewrite dict_keys_set.
      destruct (decide (m ∈ dict_keys acc)) as [Hin|Hnin]; [done|].
      apply NoDup_app. split; [done|]. split; [|apply NoDup_singleton].
      intros k Hk ->%list_elem_of_singleton. done.
Qed.

Lemma metrics_loop_unknown names : forall acc m,
  m ∈ names -> METRIC_SPECS_DICT E !! m = None ->
  exists before m0 after,
    names = (before ++ m0 :: after)%list /\
    Forall (known E) before /\
    METRIC_SPECS_DICT E !! m0 = None /\
    metrics_loop E (VStr <$> names) acc = Raise (KeyError (VStr m0)).
Proof.
  induction names as [|n names IH]; intros acc m Hin Hm.
  - by apply elem_of_nil in Hin.
  - destruct (METRIC_SPECS_DICT E !! n) as [spec|] eqn:Hn.
    + assert (m ∈ names) as Hin'.
      { apply elem_of_cons in Hin as [->|?]; [congruence|done]. }
      destruct (IH (dict_set acc n spec) m Hin' Hm)
        as (before & m0 & after & -> & Hbefore & Hm0 & Hrun).
      exists (n :: before), m0, after. repeat split; [|done|].
      * apply Forall_cons. split; [by exists spec | done].
      * cbn. rewrite Hn. exact Hrun.
    + exists [], n, names. repeat split; [apply Forall_nil_2 | done |].
      cbn. rewrite Hn. reflexivity.
Qed.
End Metrics.

(** C3: when every name of [params["metrics"]] is a key of
    [METRIC_SPECS_DICT], [create_metrics()] returns a dictionary that sends
    each of these names to its entry of the table, unchanged, and has no
    other key (each name is a key once); for an empty list it is the empty
    dictionary.  The call changes nothing. *)
Theorem create_metrics_known E st names :
  getitem (params (self st)) "metrics" = Ok (VList (VStr <$> names)) ->
  Forall (known E) names ->
  exists d,
    create_metrics E st = (Ok (VDict d), st) /\
    (forall k, dict_get d k =
       if decide (k ∈ names) then METRIC_SPECS_DICT E !! k else None) /\
    (forall k, k ∈ dict_keys d <-> k ∈ names) /\
    NoDup (dict_keys d) /\
    (names = [] -> d = []).
Proof.
  intros Hmetrics Hall.
  destruct (metrics_loop_known E names [] Hall) as (d & Hrun & Hget & Hnd).
  exists d. split; [|split; [exact Hget|split; [|split]]].
  - unfold create_metrics, mbind, M_bind, get_self, lift.
    rewrite Hmetrics. cbn. rewrite Hrun. reflexivity.
  - intros k. destruct (decide (k ∈ dict_keys d)) as [Hin|Hnin].
    + split; [intros _|done].
      destruct (decide (k ∈ names)) as [|Hout]; [done|].
      specialize (Hget k). rewrite decide_False in Hget by done.
      apply dict_get_None in Hget. done.
    + split; [done|]. intros Hk. apply dict_get_None in Hnin.
      specialize (Hget k). rewrite decide_True in Hget by done.
      rewrite Forall_forall in Hall. destruct (Hall k Hk) as [spec Hspec].
      congruence.
  - apply Hnd, NoDup_nil_2.
  - intros ->. cbn in Hrun. congruence.
Qed.

(** C7: when [params["metrics"]] holds a name that is not a key of
    [METRIC_SPECS_DICT], [create_metrics()] raises [KeyError], for the first
    such name of the list; no partial dictionary is returned and the state
    is the one before the call. *)
Theorem create_metrics_unknown E st names m :
  getitem (params (self st)) "metrics" = Ok (VList (VStr <$> names)) ->
  m ∈ names ->
  METRIC_SPECS_DICT E !! m = None ->
  exists before m0 after,
    names = (before ++ m0 :: after)%list /\
    Forall (known E) before /\
    METRIC_SPECS_DICT E !! m0 = None /\
    create_metrics E st = (Raise (KeyError (VStr m0)), st).
Proof.
  intros Hmetrics Hin Hm.
  destruct (metrics_loop_unknown E names [] m Hin Hm)
    as (before & m0 & after & Hsplit & Hbefore & Hm0 & Hrun).
  exists before, m0, after. repeat split; try done.
  unfold create_metrics, mbind, M_bind, get_self, lift.
  rewrite Hmetrics. cbn. rewrite Hrun. reflexivity.
Qed.

(** ** Models *)

(** C4: [create_model(mode)] returns a new instance of the resolved model
    class, built with exactly the keyword arguments
    [params=self.params["model_params"]] and [mode=mode]; the instance
    takes the next unused identity and the task is unchanged. *)
Theorem create_model_instance E st mode cls model_params :
  _model_cls (self st) = VClass cls ->
  getitem (params (self st)) "model_params" = Ok model_params ->
  construct E cls [] [("params", model_params); ("mode", mode)] = None ->
  create_model E mode st =
    (Ok (VInstance cls (next_id st) []
           [("params", model_params); ("mode", mode)]),
     {| self := self st; next_id := S (next_id st) |}).
Proof.
  intros Hcls Hparams Hctor. unfold create_model.
  rewrite bind_get_self, (bind_lift_ok _ _ _ _ Hparams), Hcls.
  by apply call_class.
Qed.

(** ** Training hooks *)

Lemma built_hooks_length first_id model_dir specs :
  length (built_hooks first_id model_dir specs) = length specs.
Proof.
  revert first_id. induction specs as [|[cls hp] specs IH]; intros n; simpl.
  - reflexivity.
  - by rewrite IH.
Qed.

Lemma built_hooks_lookup specs : forall first_id model_dir i spec,
  specs !! i = Some spec ->
  built_hooks first_id model_dir specs !! i =
    Some (VInstance spec.1 (first_id + i) [spec.2; model_dir] []).
Proof.
  induction specs as [|[cls hp] specs IH]; intros n md i spec Hi.
  - by rewrite lookup_nil in Hi.
  - destruct i as [|i]; simpl in *.
    + inversion Hi; subst. by rewrite Nat.add_0_r.
    + rewrite (IH (S n) md i spec Hi). by rewrite Nat.add_succ_r.
Qed.

Lemma hooks_loop_built E estimator model_dir entries specs :
  getattr E estimator "model_dir" = Some model_dir ->
  Forall2 (hook_entry E model_dir) entries specs ->
  forall acc st,
    hooks_loop E estimator entries acc st =
      (Ok (acc ++ built_hooks (next_id st) model_dir specs)%list,
       {| self := self st; next_id := next_id st + length entries |}).
Proof.
  intros Hdir Hall.
  induction Hall as [|entry [cls hp] entries specs Hentry _ IH];
    intros acc [t n].
  - cbn. by rewrite app_nil_r, Nat.add_0_r.
  - destruct Hentry as (name & Hclass & Hparams & Hres & Hctor).
    cbn [fst snd] in Hparams, Hres, Hctor.
    assert (attribute E estimator "model_dir" = Ok model_dir) as Hattr.
    { unfold attribute. by rewrite Hdir. }
    cbn [hooks_loop built_hooks].
    rewrite (bind_lift_ok _ _ _ _ Hclass), (bind_lift_ok _ _ _ _ Hres),
      (bind_lift_ok _ _ _ _ Hparams), (bind_lift_ok _ _ _ _ Hattr).
    rewrite (bind_ok _ _ _ _ _ (call_class E cls _ _ _ Hctor)).
    rewrite IH. cbn. by rewrite <- app_assoc, Nat.add_succ_r.
Qed.

(** C2: [create_training_hooks(estimator)] returns one hook per entry of
    [params["hooks"]], in the order of the entries: hook [i] is an instance
    of the class that entry [i] names under ["class"] (as [locate] finds
    it, or else as the attribute of the hooks module), built from the
    entry's ["params"] value, unchanged, and [estimator.model_dir]. *)
Theorem create_training_hooks_instances E st estimator model_dir entries specs :
  getitem (params (self st)) "hooks" = Ok (VList entries) ->
  getattr E estimator "model_dir" = Some model_dir ->
  Forall2 (hook_entry E model_dir) entries specs ->
  let training_hooks := built_hooks (next_id st) model_dir specs in
  create_training_hooks E estimator st =
    (Ok (VList training_hooks),
     {| self := self st; next_id := next_id st + length entries |}) /\
  length training_hooks = length entries /\
  forall i entry, entries !! i = Some entry ->
    exists spec,
      hook_entry E model_dir entry spec /\
      training_hooks !! i =
        Some (VInstance spec.1 (next_id st + i) [spec.2; model_dir] []).
Proof.
  intros Hhooks Hdir Hall training_hooks. split; [|split].
  - unfold create_training_hooks, mbind, M_bind, get_self, lift.
    rewrite Hhooks. cbn.
    rewrite (hooks_loop_built E estimator model_dir entries specs Hdir Hall).
    reflexivity.
  - unfold training_hooks. rewrite built_hooks_length.
    symmetry. eapply Forall2_length, Hall.
  - intros i entry Hi.
    destruct (Forall2_lookup_l _ _ _ _ _ Hall Hi) as (spec & Hspec & Hentry).
    exists spec. split; [exact Hentry|].
    by apply built_hooks_lookup.
Qed.

(** ** Construction *)

(** No part of the empty path is left to import or to follow, so
    [pydoc.locate] answers with the object it starts from. *)
Lemma locate_empty E : locate E "" = Ok builtins.
Proof. reflexivity. Qed.

Lemma locate_or_getattr_found E module name found :
  locate E name = Ok found -> truthy found = true ->
  locate_or_getattr E module (VStr name) = Ok found.
Proof. intros Hloc Htrue. cbn. rewrite Hloc. cbn. by rewrite Htrue. Qed.

Lemma locate_or_getattr_fallback E module name found :
  locate E name = Ok found -> truthy found = false ->
  locate_or_getattr E module (VStr name) =
    match getattr E module name with
    | Some o => Ok o
    | None => Raise (AttributeError name)
    end.
Proof. intros Hloc Hfalse. cbn. rewrite Hloc. cbn. by rewrite Hfalse. Qed.

Lemma init_merged E user merged model_class :
  Configurable_init E user (default_params E) = Ok merged ->
  getitem merged "model_class" = Ok model_class ->
  __init__ E user =
    cls ← locate_or_getattr E models model_class;
    mret {| params := merged; _model_cls := cls |}.
Proof.
  intros Hparse Hget. unfold __init__. rewrite Hparse. cbn. by rewrite Hget.
Qed.

Lemma init_inv E user t :
  __init__ E user = Ok t ->
  exists model_class,
    Configurable_init E user (default_params E) = Ok (params t) /\
    getitem (params t) "model_class" = Ok model_class /\
    locate_or_getattr E models model_class = Ok (_model_cls t).
Proof.
  unfold __init__. intros Hinit.
  destruct (Configurable_init E user (default_params E))
    as [merged|] eqn:Hparse; [cbn in Hinit|discriminate].
  destruct (getitem merged "model_class") as [model_class|] eqn:Hget;
    [cbn in Hinit|discriminate].
  destruct (locate_or_getattr E models model_class) as [cls|] eqn:Hres;
    [cbn in Hinit|discriminate].
  inversion Hinit; subst. cbn. eauto.
Qed.

(** C1, amended: [__init__] resolves the string [params["model_class"]] to
    an object, which need not be a class, and stores it as the model class.
    The stored object is what [pydoc.locate] returns whenever that is
    truthy, whatever the models module holds; when it is falsy, it is the
    attribute of that name of the [seq2seq.models] module. *)
Theorem init_stores_resolved_class E user merged name found :
  Configurable_init E user (default_params E) = Ok merged ->
  getitem merged "model_class" = Ok (VStr name) ->
  locate E name = Ok found ->
  (truthy found = true ->
     __init__ E user = Ok {| params := merged; _model_cls := found |}) /\
  (truthy found = false -> forall cls,
     getattr E models name = Some cls ->
     __init__ E user = Ok {| params := merged; _model_cls := cls |}).
Proof.
  intros Hparse Hget Hloc. rewrite (init_merged E user merged _ Hparse Hget).
  split.
  - intros Htrue. by rewrite (locate_or_getattr_found E models name found).
  - intros Hfalse cls Hattr.
    rewrite (locate_or_getattr_fallback E models name found) by done.
    by rewrite Hattr.
Qed.

(** C5, amended: when [locate] finds nothing truthy for the configured
    ['model_class'] and the models module has no attribute of that name,
    construction raises the [AttributeError] of [getattr] and yields no
    task.  Construction succeeds exactly when resolution yields an object,
    which is stored as it is, class or not. *)
Theorem init_succeeds_iff_resolved E user merged name :
  Configurable_init E user (default_params E) = Ok merged ->
  getitem merged "model_class" = Ok (VStr name) ->
  (forall found,
     locate E name = Ok found -> truthy found = false ->
     getattr E models name = None ->
     __init__ E user = Raise (AttributeError name)) /\
  ((exists t, __init__ E user = Ok t) <->
   (exists o, locate_or_getattr E models (VStr name) = Ok o)) /\
  (forall o, locate_or_getattr E models (VStr name) = Ok o ->
     __init__ E user = Ok {| params := merged; _model_cls := o |}).
Proof.
  intros Hparse Hget. rewrite (init_merged E user merged _ Hparse Hget).
  split; [|split].
  - intros found Hloc Hfalse Hattr.
    rewrite (locate_or_getattr_fallback E models name found) by done.
    by rewrite Hattr.
  - split.
    + intros [t Ht].
      destruct (locate_or_getattr E models (VStr name)) as [o|]; [eauto|].
      discriminate.
    + intros [o ->]. cbn. eauto.
  - intros o ->. reflexivity.
Qed.

(** C6: [default_params()] returns a dictionary of four entries:
    ['metrics'] is the empty list, ['model_class'] the empty string,
    ['model_params'] the empty dictionary, and ['hooks'] a list of two
    entries, ['PrintModelAnalysisHook'] then ['MetadataCaptureHook'], each
    with the [default_params()] of its hook class.  These are the defaults
    the constructor merges the user's dictionary with. *)
Theorem default_params_entries E :
  (exists d, default_params E = VDict d /\
     dict_keys d = ["metrics"; "model_class"; "model_params"; "hooks"]) /\
  getitem (default_params E) "metrics" = Ok (VList []) /\
  getitem (default_params E) "model_class" = Ok (VStr "") /\
  getitem (default_params E) "model_params" = Ok (VDict []) /\
  (exists first second,
     getitem (default_params E) "hooks" = Ok (VList [first; second]) /\
     getitem first "class" = Ok (VStr "PrintModelAnalysisHook") /\
     getitem first "params" = Ok (PrintModelAnalysisHook_default_params E) /\
     getitem second "class" = Ok (VStr "MetadataCaptureHook") /\
     getitem second "params" = Ok (MetadataCaptureHook_default_params E)) /\
  (forall user t, __init__ E user = Ok t ->
     Configurable_init E user (default_params E) = Ok (params t)).
Proof.
  split; [eexists; split; reflexivity|].
  do 3 (split; [reflexivity|]).
  split; [do 2 eexists; repeat split; reflexivity|].
  intros user t Hinit. by destruct (init_inv E user t Hinit) as (? & ? & _).
Qed.

(** C8, amended: with ['model_class'] left at its default, the empty string,
    construction does not fail: [pydoc.locate('')] is the [builtins]
    module, which is truthy, so it is stored as the model class and the
    models module is not consulted.  A module cannot be called, so
    [create_model] raises on such a task.  Every successful construction,
    from any configuration, stores what its ['model_class'] resolves to. *)
Theorem init_default_model_class E user merged :
  Configurable_init E user (default_params E) = Ok merged ->
  getitem merged "model_class" = Ok (VStr "") ->
  __init__ E user = Ok {| params := merged; _model_cls := builtins |} /\
  (forall mode st,
     self st = {| params := merged; _model_cls := builtins |} ->
     create_model E mode st =
       (Raise match getitem merged "model_params" with
              | Ok _ => TypeError "object is not callable"
              | Raise e => e
              end, st)) /\
  (forall any_user t, __init__ E any_user = Ok t ->
     exists model_class,
       getitem (params t) "model_class" = Ok model_class /\
       locate_or_getattr E models model_class = Ok (_model_cls t)).
Proof.
  intros Hparse Hget. split; [|split].
  - rewrite (init_merged E user merged _ Hparse Hget).
    by rewrite (locate_or_getattr_found E models "" builtins (locate_empty E)).
  - intros mode st Hself. unfold create_model.
    rewrite bind_get_self, Hself. cbn [params _model_cls].
    destruct (getitem merged "model_params") as [mp|e]; reflexivity.
  - intros any_user t Hinit.
    destruct (init_inv E any_user t Hinit) as (mc & _ & Hg & Hres). eauto.
Qed.

(** ** The statements at work on the sample installation *)

Lemma init_stores_resolved_class_witness :
  __init__ Fixture.env Fixture.by_path =
    Ok {| params := Fixture.merged_of Fixture.by_path;
          _model_cls := VClass "seq2seq.models.AttentionSeq2Seq" |} /\
  __init__ Fixture.env Fixture.by_name =
    Ok {| params := Fixture.merged_of Fixture.by_name;
          _model_cls := VClass "seq2seq.models.BasicSeq2Seq" |}.
Proof.
  split.
  - apply (proj1 (init_stores_resolved_class Fixture.env Fixture.by_path
             (Fixture.merged_of Fixture.by_path)
             "seq2seq.models.AttentionSeq2Seq"
             (VClass "seq2seq.models.AttentionSeq2Seq")
             eq_refl eq_refl eq_refl));
      reflexivity.
  - apply (proj2 (init_stores_resolved_class Fixture.env Fixture.by_name
             (Fixture.merged_of Fixture.by_name) "BasicSeq2Seq" VNone
             eq_refl eq_refl eq_refl));
      reflexivity.
Defined.

(** The name of a package is resolved and stored like any other: the
    stored model class is then a module, not a class. *)
Lemma init_stores_a_package :
  __init__ Fixture.env Fixture.package_path =
    Ok {| params := Fixture.merged_of Fixture.package_path;
          _model_cls := VModule "seq2seq" |} /\
  ~ (forall t, __init__ Fixture.env Fixture.package_path = Ok t ->
       exists cls, _model_cls t = VClass cls).
Proof.
  split; [reflexivity|]. intros Hclass.
  destruct (Hclass _ eq_refl) as [cls Hcls]. discriminate Hcls.
Qed.

Lemma create_training_hooks_instances_witness :
  create_training_hooks Fixture.env Fixture.estimator (Fixture.configured []) =
    (Ok (VList [
       VInstance "seq2seq.training.hooks.PrintModelAnalysisHook" 3
         [VDict []; VStr "/tmp/model"] [];
       VInstance "seq2seq.training.hooks.MetadataCaptureHook" 4
         [VDict [("step", VInt 10)]; VStr "/tmp/model"] []
     ]),
     {| self := self (Fixture.configured []); next_id := 5 |}).
Proof.
  refine (proj1 (create_training_hooks_instances Fixture.env
    (Fixture.configured []) Fixture.estimator (VStr "/tmp/model") _
    [("seq2seq.training.hooks.PrintModelAnalysisHook", VDict []);
     ("seq2seq.training.hooks.MetadataCaptureHook", VDict [("step", VInt 10)])]
    eq_refl eq_refl _)).
  repeat apply Forall2_cons_2; try apply Forall2_nil_2.
  - exists "PrintModelAnalysisHook". repeat split; reflexivity.
  - exists "seq2seq.training.hooks.MetadataCaptureHook".
    repeat split; reflexivity.
Defined.

Lemma create_metrics_known_witness :
  exists d,
    create_metrics Fixture.env
        (Fixture.configured ["log_perplexity"; "bleu"; "log_perplexity"]) =
      (Ok (VDict d),
       Fixture.configured ["log_perplexity"; "bleu"; "log_perplexity"]) /\
    dict_get d "bleu" = Some (Fixture.metric "bleu") /\
    dict_get d "rouge" = None.
Proof.
  destruct (create_metrics_known Fixture.env
    (Fixture.configured ["log_perplexity"; "bleu"; "log_perplexity"])
    ["log_perplexity"; "bleu"; "log_perplexity"] eq_refl)
    as (d & Hrun & Hget & _).
  - repeat (apply Forall_cons; split; [eexists; reflexivity|]).
    apply Forall_nil_2.
  - exists d. split; [exact Hrun|].
    split; [exact (Hget "bleu") | exact (Hget "rouge")].
Defined.

Lemma create_model_instance_witness :
  create_model Fixture.env (VStr "train") (Fixture.configured []) =
    (Ok (VInstance "seq2seq.models.BasicSeq2Seq" 3 []
           [("params", VDict [("embedding.dim", VInt 128)]);
            ("mode", VStr "train")]),
     {| self := self (Fixture.configured []); next_id := 4 |}).
Proof.
  exact (create_model_instance Fixture.env (Fixture.configured [])
           (VStr "train") "seq2seq.models.BasicSeq2Seq"
           (VDict [("embedding.dim", VInt 128)]) eq_refl eq_refl eq_refl).
Defined.

(** The path of a module is accepted as a model class: construction
    succeeds although the name does not resolve to a class. *)
Lemma init_accepts_module_path :
  __init__ Fixture.env Fixture.module_path =
    Ok {| params := Fixture.merged_of Fixture.module_path;
          _model_cls := VModule "seq2seq.models" |} /\
  ~ ((exists t, __init__ Fixture.env Fixture.module_path = Ok t) <->
     resolves_to_class Fixture.env (VStr "seq2seq.models")).
Proof.
  split; [reflexivity|].
  intros [Hclass _]. destruct Hclass as [cls Hcls]; [eexists; reflexivity|].
  vm_compute in Hcls. discriminate Hcls.
Qed.

Lemma init_succeeds_iff_resolved_witness :
  __init__ Fixture.env Fixture.misspelt =
    Raise (AttributeError "BasicSeq2Sec") /\
  __init__ Fixture.env Fixture.module_path =
    Ok {| params := Fixture.merged_of Fixture.module_path;
          _model_cls := VModule "seq2seq.models" |}.
Proof.
  split.
  - exact (proj1 (init_succeeds_iff_resolved Fixture.env Fixture.misspelt
             (Fixture.merged_of Fixture.misspelt) "BasicSeq2Sec"
             eq_refl eq_refl) VNone eq_refl eq_refl eq_refl).
  - exact (proj2 (proj2 (init_succeeds_iff_resolved Fixture.env
             Fixture.module_path (Fixture.merged_of Fixture.module_path)
             "seq2seq.models" eq_refl eq_refl)) _ eq_refl).
Defined.

Lemma create_metrics_unknown_witness :
  exists before m0 after,
    ["bleu"; "rouge_1/f_score"; "meteor"] = (before ++ m0 :: after)%list /\
    Forall (known Fixture.env) before /\
    METRIC_SPECS_DICT Fixture.env !! m0 = None /\
    create_metrics Fixture.env
        (Fixture.configured ["bleu"; "rouge_1/f_score"; "meteor"]) =
      (Raise (KeyError (VStr m0)),
       Fixture.configured ["bleu"; "rouge_1/f_score"; "meteor"]).
Proof.
  apply (create_metrics_unknown Fixture.env
           (Fixture.configured ["bleu"; "rouge_1/f_score"; "meteor"])
           ["bleu"; "rouge_1/f_score"; "meteor"] "meteor" eq_refl).
  - do 2 apply list_elem_of_further. apply list_elem_of_here.
  - reflexivity.
Defined.

(** The defaults alone make a task: construction returns, with the
    [builtins] module as the model class. *)
Lemma init_accepts_default_params :
  __init__ Fixture.env (default_params Fixture.env) =
    Ok {| params := default_params Fixture.env; _model_cls := builtins |} /\
  ~ (exists e, __init__ Fixture.env (default_params Fixture.env) = Raise e).
Proof.
  split; [reflexivity|]. intros [e He]. vm_compute in He. discriminate He.
Qed.

Lemma init_default_model_class_witness :
  __init__ Fixture.env (default_params Fixture.env) =
    Ok {| params := default_params Fixture.env; _model_cls := builtins |} /\
  create_model Fixture.env (VStr "train")
      {| self := {| params := default_params Fixture.env;
                    _model_cls := builtins |};
         next_id := 0 |} =
    (Raise (TypeError "object is not callable"),
     {| self := {| params := default_params Fixture.env;
                   _model_cls := builtins |};
        next_id := 0 |}) /\
  exists model_class,
    getitem (Fixture.merged_of Fixture.by_name) "model_class" =
      Ok model_class /\
    locate_or_getattr Fixture.env models model_class =
      Ok (VClass "seq2seq.models.BasicSeq2Seq").
Proof.
  pose proof (init_default_model_class Fixture.env
    (default_params Fixture.env) (default_params Fixture.env)
    eq_refl eq_refl) as (Hinit & Hmodel & Hany).
  split; [exact Hinit|]. split.
  - exact (Hmodel (VStr "train")
             {| self := {| params := default_params Fixture.env;
                           _model_cls := builtins |};
                next_id := 0 |} eq_refl).
  - exact (Hany Fixture.by_name
             {| params := Fixture.merged_of Fixture.by_name;
                _model_cls := VClass "seq2seq.models.BasicSeq2Seq" |}
             eq_refl).
Defined.

(** ** Dotted paths *)

Lemma split_dot_dotless s : dotless s = true -> split_dot s = [s].
Proof.
  induction s as [|c s IH]; [reflexivity|]. cbn [dotless split_dot].
  intros [Hc Hs]%andb_true_iff. apply negb_true_iff in Hc. rewrite Hc.
  by rewrite (IH Hs).
Qed.

Lemma split_dot_app s t :
  dotless s = true -> split_dot (s +:+ "." +:+ t) = s :: split_dot t.
Proof.
  induction s as [|c s IH]; [reflexivity|]. cbn [dotless].
  intros [Hc Hs]%andb_true_iff. apply negb_true_iff in Hc.
  change (String c s +:+ "." +:+ t) with (String c (s +:+ "." +:+ t)).
  cbn [split_dot]. rewrite Hc. by rewrite (IH Hs).
Qed.

Lemma join_dot_cons s parts :
  parts <> [] -> join_dot (s :: parts) = s +:+ "." +:+ join_dot parts.
Proof. destruct parts; [done|reflexivity]. Qed.

(** Splitting undoes joining, for components without dots. *)
Lemma split_dot_join_dot parts :
  parts <> [] -> Forall (fun s => dotless s = true) parts ->
  split_dot (join_dot parts) = parts.
Proof.
  induction parts as [|s parts IH]; [done|]. intros _ Hall.
  apply Forall_cons in Hall as [Hs Hall].
  destruct parts as [|s' parts].
  - by apply split_dot_dotless.
  - rewrite join_dot_cons by done. rewrite split_dot_app by done.
    by rewrite IH.
Qed.

Lemma filter_components parts :
  Forall component parts -> filter (fun part => part <> "") parts = parts.
Proof.
  induction 1 as [|s parts [_ Hs] _ IH]; [reflexivity|].
  rewrite filter_cons_True by done. by rewrite IH.
Qed.

Lemma parts_of_join_dot parts :
  parts <> [] -> Forall component parts ->
  filter (fun part => part <> "") (split_dot (join_dot parts)) = parts.
Proof.
  intros Hne Hall.
  rewrite split_dot_join_dot; [by apply filter_components|done|].
  eapply Forall_impl; [exact Hall|]. by intros s [? _].
Qed.

(** ** What [locate] finds *)

Section LocateFacts.
Context (E : environment).

(** The import loop, started at [n], when the prefixes of lengths [n+1] to
    [n+k] import and the next one does not. *)
Lemma locate_import_stops parts k : forall n module,
  n + k < length parts ->
  (forall i, n <= i < n + k -> exists m,
     safeimport E (join_dot (take (S i) parts)) = Ok m /\ truthy m = true) ->
  (exists m, safeimport E (join_dot (take (S (n + k)) parts)) = Ok m /\
     truthy m = false) ->
  exists found,
    locate_import E parts (drop n parts) module n = Ok (found, n + k) /\
    (k = 0 -> found = module) /\
    (0 < k -> safeimport E (join_dot (take (n + k) parts)) = Ok found).
Proof.
  induction k as [|k IH]; intros n module Hlen Himports Hstop.
  - rewrite Nat.add_0_r in *. destruct Hstop as (m & Hm & Hfalse).
    destruct (lookup_lt_is_Some_2 parts n Hlen) as [part Hpart].
    rewrite (drop_S _ _ _ Hpart). cbn [locate_import]. rewrite Hm. cbn.
    rewrite Hfalse. exists module. split; [done|]. split; [done|lia].
  - destruct (Himports n ltac:(lia)) as (m & Hm & Htrue).
    assert (n < length parts) as Hn by lia.
    destruct (lookup_lt_is_Some_2 parts n Hn) as [part Hpart].
    rewrite (drop_S _ _ _ Hpart). cbn [locate_import]. rewrite Hm. cbn.
    rewrite Htrue.
    destruct (IH (S n) m) as (found & Hrun & Hzero & Hpos).
    + lia.
    + intros i Hi. apply Himports. lia.
    + by replace (S n + k) with (n + S k) by lia.
    + exists found. replace (n + S k) with (S n + k) by lia.
      split; [exact Hrun|]. split; [lia|]. intros _.
      destruct k as [|k].
      * rewrite Nat.add_0_r. by rewrite (Hzero eq_refl).
      * apply Hpos. lia.
Qed.

Lemma locate_bare_name name found :
  component name ->
  safeimport E name = Ok found -> truthy found = false ->
  locate E name =
    Ok match getattr E builtins name with Some o => o | None => VNone end.
Proof.
  intros [Hdots Hne] Himport Hfalse. unfold locate.
  rewrite (split_dot_dotless name Hdots).
  rewrite filter_cons_True by done. rewrite filter_nil.
  cbn. rewrite Himport. cbn. rewrite Hfalse. cbn.
  by destruct (getattr E builtins name).
Qed.

Lemma locate_import_error name e :
  component name -> safeimport E name = Raise e -> locate E name = Raise e.
Proof.
  intros [Hdots Hne] Himport. unfold locate.
  rewrite (split_dot_dotless name Hdots).
  rewrite filter_cons_True by done. rewrite filter_nil.
  cbn. by rewrite Himport.
Qed.

Lemma locate_module_attribute mods name module :
  mods <> [] -> Forall component (mods ++ [name]) ->
  (forall k, k < length mods -> exists m,
     safeimport E (join_dot (take (S k) mods)) = Ok m /\ truthy m = true) ->
  safeimport E (join_dot mods) = Ok module ->
  (exists m, safeimport E (join_dot (mods ++ [name])) = Ok m /\
     truthy m = false) ->
  locate E (join_dot (mods ++ [name])) =
    Ok match getattr E module name with Some o => o | None => VNone end.
Proof.
  intros Hmods Hall Himports Hmodule Hstop. unfold locate.
  rewrite parts_of_join_dot; [|by destruct mods|done].
  set (parts := (mods ++ [name])%list).
  assert (length parts = S (length mods)) as Hlen.
  { unfold parts. rewrite length_app. simpl. lia. }
  destruct (locate_import_stops parts (length mods) 0 VNone)
    as (found & Hrun & _ & Hfound).
  - simpl. lia.
  - intros i [_ Hi]. simpl in Hi. unfold parts.
    rewrite take_app_le by lia. by apply Himports.
  - simpl. rewrite <- Hlen, firstn_all. exact Hstop.
  - rewrite drop_0 in Hrun. rewrite Hrun. cbn.
    assert (0 < length mods) as Hpos by (destruct mods; [done|simpl; lia]).
    specialize (Hfound Hpos). simpl in Hfound. unfold parts in Hfound.
    rewrite take_app_length in Hfound.
    assert (found = module) as -> by congruence.
    destruct (Himports (length mods - 1) ltac:(lia)) as (m & Hm & Htrue).
    replace (S (length mods - 1)) with (length mods) in Hm by lia.
    rewrite firstn_all in Hm. assert (m = module) as -> by congruence.
    rewrite Htrue. unfold parts. rewrite drop_app_length. cbn.
    by destruct (getattr E module name).
Qed.
End LocateFacts.

(** ** Resolution of configured names *)

(** A bare name that is neither an importable module nor a builtin is
    looked up in the fallback module, and only there; when the module does
    not have it, the lookup raises [AttributeError] for that name. *)
Theorem locate_or_getattr_bare_name E module name found :
  component name ->
  safeimport E name = Ok found -> truthy found = false ->
  getattr E builtins name = None ->
  locate_or_getattr E module (VStr name) =
    match getattr E module name with
    | Some o => Ok o
    | None => Raise (AttributeError name)
    end.
Proof.
  intros Hname Himport Hfalse Hbuiltin.
  pose proof (locate_bare_name E name found Hname Himport Hfalse) as Hloc.
  rewrite Hbuiltin in Hloc.
  by rewrite (locate_or_getattr_fallback E module name VNone Hloc).
Qed.

(** A dotted path [package.module.Name] whose module part imports resolves
    to the attribute [Name] of that module, whatever the fallback module
    holds. *)
Theorem locate_or_getattr_dotted E fallback mods name module o :
  mods <> [] -> Forall component (mods ++ [name]) ->
  (forall k, k < length mods -> exists m,
     safeimport E (join_dot (take (S k) mods)) = Ok m /\ truthy m = true) ->
  safeimport E (join_dot mods) = Ok module ->
  (exists m, safeimport E (join_dot (mods ++ [name])) = Ok m /\
     truthy m = false) ->
  getattr E module name = Some o -> truthy o = true ->
  locate_or_getattr E fallback (VStr (join_dot (mods ++ [name]))) = Ok o.
Proof.
  intros Hmods Hall Himports Hmodule Hstop Hattr Htrue.
  pose proof (locate_module_attribute E mods name module
                Hmods Hall Himports Hmodule Hstop) as Hloc.
  rewrite Hattr in Hloc.
  by apply locate_or_getattr_found.
Qed.

(** An error raised while importing the configured name ends construction
    with that error: the models module is not tried. *)
Theorem init_import_error E user merged name e :
  Configurable_init E user (default_params E) = Ok merged ->
  getitem merged "model_class" = Ok (VStr name) ->
  component name ->
  safeimport E name = Raise e ->
  __init__ E user = Raise e.
Proof.
  intros Hparse Hget Hname Himport.
  rewrite (init_merged E user merged _ Hparse Hget).
  cbn [locate_or_getattr].
  by rewrite (locate_import_error E name e Hname Himport).
Qed.

(** Construction followed by [create_model]: a task built from a
    configuration whose ['model_class'] resolves to a class makes instances
    of that class from the merged ['model_params']. *)
Theorem init_then_create_model E user merged name cls model_params mode :
  Configurable_init E user (default_params E) = Ok merged ->
  getitem merged "model_class" = Ok (VStr name) ->
  locate_or_getattr E models (VStr name) = Ok (VClass cls) ->
  getitem merged "model_params" = Ok model_params ->
  construct E cls [] [("params", model_params); ("mode", mode)] = None ->
  exists t,
    __init__ E user = Ok t /\
    forall n,
      create_model E mode {| self := t; next_id := n |} =
        (Ok (VInstance cls n [] [("params", model_params); ("mode", mode)]),
         {| self := t; next_id := S n |}).
Proof.
  intros Hparse Hget Hres Hparams Hctor.
  exists {| params := merged; _model_cls := VClass cls |}. split.
  - rewrite (init_merged E user merged _ Hparse Hget). by rewrite Hres.
  - intros n. unfold create_model. rewrite bind_get_self. cbn [self params].
    rewrite (bind_lift_ok _ _ _ _ Hparams). cbn [_model_cls].
    by rewrite (call_class E cls _ _ _ Hctor).
Qed.

(** ** More on models *)

Lemma create_model_run E mode cls model_params t n :
  _model_cls t = VClass cls ->
  getitem (params t) "model_params" = Ok model_params ->
  construct E cls [] [("params", model_params); ("mode", mode)] = None ->
  create_model E mode {| self := t; next_id := n |} =
    (Ok (VInstance cls n [] [("params", model_params); ("mode", mode)]),
     {| self := t; next_id := S n |}).
Proof.
  intros Hcls Hparams Hctor. unfold create_model.
  rewrite bind_get_self. cbn [self].
  rewrite (bind_lift_ok _ _ _ _ Hparams), Hcls.
  by rewrite (call_class E cls _ _ _ Hctor).
Qed.

(** Every call makes a new model: two calls in a row return two distinct
    instances of the same class, built from the same ['model_params'],
    each in its own mode. *)
Theorem create_model_twice E st mode1 mode2 cls model_params :
  _model_cls (self st) = VClass cls ->
  getitem (params (self st)) "model_params" = Ok model_params ->
  construct E cls [] [("params", model_params); ("mode", mode1)] = None ->
  construct E cls [] [("params", model_params); ("mode", mode2)] = None ->
  (first ← create_model E mode1;
   second ← create_model E mode2;
   mret (first, second)) st =
    (Ok (VInstance cls (next_id st) []
           [("params", model_params); ("mode", mode1)],
         VInstance cls (S (next_id st)) []
           [("params", model_params); ("mode", mode2)]),
     {| self := self st; next_id := S (S (next_id st)) |}).
Proof.
  intros Hcls Hparams Hctor1 Hctor2. destruct st as [t n].
  cbn [self next_id] in *.
  rewrite (bind_ok _ _ _ _ _
             (create_model_run E mode1 cls model_params t n
                Hcls Hparams Hctor1)).
  by rewrite (bind_ok _ _ _ _ _
                (create_model_run E mode2 cls model_params t (S n)
                   Hcls Hparams Hctor2)).
Qed.

(** ** More on training hooks *)

Lemma hooks_loop_prefix E estimator model_dir built specs more :
  getattr E estimator "model_dir" = Some model_dir ->
  Forall2 (hook_entry E model_dir) built specs ->
  forall acc st,
    hooks_loop E estimator (built ++ more) acc st =
      hooks_loop E estimator more
        (acc ++ built_hooks (next_id st) model_dir specs)
        {| self := self st; next_id := next_id st + length built |}.
Proof.
  intros Hdir Hall.
  induction Hall as [|entry [cls hp] built specs Hentry _ IH];
    intros acc [t n].
  - cbn. by rewrite app_nil_r, Nat.add_0_r.
  - destruct Hentry as (name & Hclass & Hparams & Hres & Hctor).
    cbn [fst snd] in Hparams, Hres, Hctor.
    assert (attribute E estimator "model_dir" = Ok model_dir) as Hattr.
    { unfold attribute. by rewrite Hdir. }
    rewrite <- app_comm_cons. cbn [hooks_loop built_hooks].
    rewrite (bind_lift_ok _ _ _ _ Hclass), (bind_lift_ok _ _ _ _ Hres),
      (bind_lift_ok _ _ _ _ Hparams), (bind_lift_ok _ _ _ _ Hattr).
    rewrite (bind_ok _ _ _ _ _ (call_class E cls _ _ _ Hctor)).
    rewrite IH. cbn. by rewrite <- app_assoc, Nat.add_succ_r.
Qed.

Lemma hooks_loop_length E estimator entries : forall acc st hs st',
  hooks_loop E estimator entries acc st = (Ok hs, st') ->
  length hs = length acc + length entries.
Proof.
  induction entries as [|entry entries IH]; intros acc st hs st' Hrun.
  - cbn in Hrun. inversion Hrun; subst. simpl. lia.
  - cbn [hooks_loop] in Hrun. unfold mbind at 1, M_bind, lift in Hrun.
    destruct (getitem entry "class") as [name|]; [|discriminate].
    unfold mbind at 1, M_bind in Hrun.
    destruct (locate_or_getattr E hooks name) as [cls|]; [|discriminate].
    unfold mbind at 1, M_bind in Hrun.
    destruct (getitem entry "params") as [hp|]; [|discriminate].
    unfold mbind at 1, M_bind in Hrun.
    destruct (attribute E estimator "model_dir") as [md|]; [|discriminate].
    unfold mbind at 1, M_bind in Hrun.
    destruct (call E cls [hp; md] [] st) as [[hook|] st1]; [|discriminate].
    apply IH in Hrun. rewrite length_app in Hrun. simpl in *. lia.
Qed.

Lemma built_hooks_identity specs : forall first_id model_dir,
  identity <$> built_hooks first_id model_dir specs =
    Some <$> seq first_id (length specs).
Proof.
  induction specs as [|[cls hp] specs IH]; intros n md; [reflexivity|].
  cbn. by rewrite IH.
Qed.

(** [estimator.model_dir] is read inside the loop, after the entry's class
    is resolved and its ['params'] are read.  Without entries the estimator
    is not touched.  A first entry whose class cannot be read or resolved,
    or that has no ['params'], raises its own error whatever the estimator
    is.  Only when both are there does an estimator without [model_dir]
    make the call raise [AttributeError], before any hook is built. *)
Theorem create_training_hooks_model_dir E st estimator :
  (forall configured,
     getitem (params (self st)) "hooks" = Ok configured ->
     iterate configured = Ok [] ->
     create_training_hooks E estimator st = (Ok (VList []), st)) /\
  (forall entry entries e,
     getitem (params (self st)) "hooks" = Ok (VList (entry :: entries)) ->
     getitem entry "class" ≫= locate_or_getattr E hooks = Raise e ->
     create_training_hooks E estimator st = (Raise e, st)) /\
  (forall entry entries name cls e,
     getitem (params (self st)) "hooks" = Ok (VList (entry :: entries)) ->
     getitem entry "class" = Ok name ->
     locate_or_getattr E hooks name = Ok cls ->
     getitem entry "params" = Raise e ->
     create_training_hooks E estimator st = (Raise e, st)) /\
  (forall entry entries name cls hook_params,
     getitem (params (self st)) "hooks" = Ok (VList (entry :: entries)) ->
     getitem entry "class" = Ok name ->
     locate_or_getattr E hooks name = Ok cls ->
     getitem entry "params" = Ok hook_params ->
     getattr E estimator "model_dir" = None ->
     create_training_hooks E estimator st =
       (Raise (AttributeError "model_dir"), st)).
Proof.
  split; [|split; [|split]].
  - intros configured Hhooks Hiter. unfold create_training_hooks.
    rewrite bind_get_self, (bind_lift_ok _ _ _ _ Hhooks),
      (bind_lift_ok _ _ _ _ Hiter).
    reflexivity.
  - intros entry entries e Hhooks Hbad. unfold create_training_hooks.
    rewrite bind_get_self, (bind_lift_ok _ _ _ _ Hhooks).
    rewrite (bind_lift_ok (iterate _) (entry :: entries)) by reflexivity.
    unfold mbind at 1, M_bind. cbn [hooks_loop].
    destruct (getitem entry "class") as [name|e'] eqn:Hclass.
    + cbn in Hbad. rewrite (bind_lift_ok _ _ _ _ eq_refl).
      by rewrite (bind_lift_raise _ _ _ _ Hbad).
    + cbn in Hbad. inversion Hbad; subst. reflexivity.
  - intros entry entries name cls e Hhooks Hclass Hres Hparams.
    unfold create_training_hooks.
    rewrite bind_get_self, (bind_lift_ok _ _ _ _ Hhooks).
    rewrite (bind_lift_ok (iterate _) (entry :: entries)) by reflexivity.
    unfold mbind at 1, M_bind. cbn [hooks_loop].
    rewrite (bind_lift_ok _ _ _ _ Hclass), (bind_lift_ok _ _ _ _ Hres),
      (bind_lift_raise _ _ _ _ Hparams).
    reflexivity.
  - intros entry entries name cls hp Hhooks Hclass Hres Hparams Hdir.
    assert (attribute E estimator "model_dir" =
              Raise (AttributeError "model_dir")) as Hattr.
    { unfold attribute. by rewrite Hdir. }
    unfold create_training_hooks.
    rewrite bind_get_self, (bind_lift_ok _ _ _ _ Hhooks).
    rewrite (bind_lift_ok (iterate _) (entry :: entries)) by reflexivity.
    unfold mbind at 1, M_bind. cbn [hooks_loop].
    rewrite (bind_lift_ok _ _ _ _ Hclass), (bind_lift_ok _ _ _ _ Hres),
      (bind_lift_ok _ _ _ _ Hparams), (bind_lift_raise _ _ _ _ Hattr).
    reflexivity.
Qed.

(** An entry whose ['class'] cannot be read or resolved makes the call
    raise that error: the entries after it are not looked at, and the hooks
    of the entries before it have been built but are not returned. *)
Theorem create_training_hooks_bad_entry
    E st estimator model_dir built specs bad rest e :
  getitem (params (self st)) "hooks" = Ok (VList (built ++ bad :: rest)) ->
  getattr E estimator "model_dir" = Some model_dir ->
  Forall2 (hook_entry E model_dir) built specs ->
  getitem bad "class" ≫= locate_or_getattr E hooks = Raise e ->
  create_training_hooks E estimator st =
    (Raise e, {| self := self st; next_id := next_id st + length built |}).
Proof.
  intros Hhooks Hdir Hbuilt Hbad. unfold create_training_hooks.
  rewrite bind_get_self, (bind_lift_ok _ _ _ _ Hhooks).
  rewrite (bind_lift_ok (iterate _) (built ++ bad :: rest)%list)
    by reflexivity.
  unfold mbind at 1, M_bind.
  rewrite (hooks_loop_prefix E estimator model_dir built specs _ Hdir Hbuilt).
  cbn [hooks_loop].
  destruct (getitem bad "class") as [name|e'] eqn:Hclass.
  - cbn in Hbad. rewrite (bind_lift_ok _ _ _ _ eq_refl).
    by rewrite (bind_lift_raise _ _ _ _ Hbad).
  - cbn in Hbad. inversion Hbad; subst. reflexivity.
Qed.

(** A ['hooks'] value that is a non-empty dictionary or a non-empty string,
    instead of a list of dictionaries, is walked key by key or character
    by character, and subscripting the first of these raises [TypeError]. *)
Theorem create_training_hooks_not_a_list E st estimator configured :
  getitem (params (self st)) "hooks" = Ok configured ->
  (exists k v d, configured = VDict ((k, v) :: d)) \/
  (exists c s, configured = VStr (String c s)) ->
  create_training_hooks E estimator st =
    (Raise (TypeError "indices must be integers"), st).
Proof.
  intros Hhooks Hshape. unfold create_training_hooks.
  rewrite bind_get_self, (bind_lift_ok _ _ _ _ Hhooks).
  destruct Hshape as [(k & v & d & ->)|(c & s & ->)]; reflexivity.
Qed.

(** When the call returns, it returns one hook per entry, whatever the
    entries are: no entry is skipped. *)
Theorem create_training_hooks_returns_all
    E st estimator configured entries v st' :
  getitem (params (self st)) "hooks" = Ok configured ->
  iterate configured = Ok entries ->
  create_training_hooks E estimator st = (Ok v, st') ->
  exists training_hooks,
    v = VList training_hooks /\ length training_hooks = length entries.
Proof.
  intros Hhooks Hiter. unfold create_training_hooks.
  rewrite bind_get_self, (bind_lift_ok _ _ _ _ Hhooks),
    (bind_lift_ok _ _ _ _ Hiter).
  unfold mbind at 1, M_bind.
  destruct (hooks_loop E estimator entries [] st) as [[hs|] st1] eqn:Hrun;
    [|discriminate].
  intros Hret. inversion Hret; subst. exists hs. split; [reflexivity|].
  by apply hooks_loop_length in Hrun.
Qed.

(** The hooks of one call are distinct objects, also when two entries are
    the same, and none of them existed before the call. *)
Theorem create_training_hooks_fresh
    E st estimator model_dir entries specs :
  getitem (params (self st)) "hooks" = Ok (VList entries) ->
  getattr E estimator "model_dir" = Some model_dir ->
  Forall2 (hook_entry E model_dir) entries specs ->
  exists training_hooks st',
    create_training_hooks E estimator st = (Ok (VList training_hooks), st') /\
    NoDup training_hooks /\
    Forall (fun hook => exists id,
              identity hook = Some id /\
              next_id st <= id < next_id st') training_hooks.
Proof.
  intros Hhooks Hdir Hall.
  exists (built_hooks (next_id st) model_dir specs),
    {| self := self st; next_id := next_id st + length entries |}.
  pose proof (Forall2_length _ _ _ Hall) as Hlen.
  pose proof (built_hooks_identity specs (next_id st) model_dir) as Hids.
  split; [|split].
  - unfold create_training_hooks.
    rewrite bind_get_self, (bind_lift_ok _ _ _ _ Hhooks).
    rewrite (bind_lift_ok (iterate _) entries) by reflexivity.
    unfold mbind at 1, M_bind.
    rewrite (hooks_loop_built E estimator model_dir entries specs Hdir Hall).
    reflexivity.
  - apply (NoDup_fmap_1 identity). rewrite Hids.
    apply NoDup_fmap_2; [apply _|apply NoDup_seq].
  - apply Forall_forall. intros hook Hin.
    apply (list_elem_of_fmap_2 identity) in Hin. rewrite Hids in Hin.
    apply list_elem_of_fmap in Hin as (id & Hid & Hseq).
    apply elem_of_seq in Hseq. exists id. cbn [next_id].
    split; [done|lia].
Qed.

Lemma locate_or_getattr_fallback_only E module name o :
  fallback_only E module name o ->
  locate_or_getattr E module (VStr name) = Ok o.
Proof.
  intros (Hname & (found & Himport & Hfalse) & Hbuiltin & Hattr).
  pose proof (locate_bare_name E name found Hname Himport Hfalse) as Hloc.
  rewrite Hbuiltin in Hloc.
  rewrite (locate_or_getattr_fallback E module name VNone Hloc) by done.
  by rewrite Hattr.
Qed.

(** With the default ['hooks'] configuration, the two hooks are found in
    the hooks module by their bare names and built from the default
    parameters of their own classes, [PrintModelAnalysisHook] first. *)
Theorem create_training_hooks_defaults
    E st estimator model_dir print_cls meta_cls :
  getitem (params (self st)) "hooks" = getitem (default_params E) "hooks" ->
  getattr E estimator "model_dir" = Some model_dir ->
  fallback_only E hooks "PrintModelAnalysisHook" (VClass print_cls) ->
  fallback_only E hooks "MetadataCaptureHook" (VClass meta_cls) ->
  construct E print_cls
    [PrintModelAnalysisHook_default_params E; model_dir] [] = None ->
  construct E meta_cls
    [MetadataCaptureHook_default_params E; model_dir] [] = None ->
  create_training_hooks E estimator st =
    (Ok (VList [
       VInstance print_cls (next_id st)
         [PrintModelAnalysisHook_default_params E; model_dir] [];
       VInstance meta_cls (S (next_id st))
         [MetadataCaptureHook_default_params E; model_dir] []
     ]),
     {| self := self st; next_id := next_id st + 2 |}).
Proof.
  intros Hhooks Hdir Hprint Hmeta Hctor1 Hctor2.
  assert (getitem (default_params E) "hooks" =
    Ok (VList [
      VDict [("class", VStr "PrintModelAnalysisHook");
             ("params", PrintModelAnalysisHook_default_params E)];
      VDict [("class", VStr "MetadataCaptureHook");
             ("params", MetadataCaptureHook_default_params E)]]))
    as Hdefault by reflexivity.
  rewrite Hdefault in Hhooks. unfold create_training_hooks.
  rewrite bind_get_self, (bind_lift_ok _ _ _ _ Hhooks).
  erewrite (bind_lift_ok (iterate _)) by reflexivity.
  unfold mbind at 1, M_bind.
  rewrite (hooks_loop_built E estimator model_dir _
    [(print_cls, PrintModelAnalysisHook_default_params E);
     (meta_cls, MetadataCaptureHook_default_params E)] Hdir).
  - reflexivity.
  - repeat apply Forall2_cons_2; [| |apply Forall2_nil_2].
    + exists "PrintModelAnalysisHook". repeat split; try done.
      by apply locate_or_getattr_fallback_only.
    + exists "MetadataCaptureHook". repeat split; try done.
      by apply locate_or_getattr_fallback_only.
Qed.

(** ** More on metrics *)

Lemma metrics_loop_ok_inv E ms : forall acc d,
  metrics_loop E ms acc = Ok d ->
  exists names, ms = VStr <$> names /\ Forall (known E) names.
Proof.
  induction ms as [|m ms IH]; intros acc d Hrun.
  - exists []. split; [reflexivity|apply Forall_nil_2].
  - cbn [metrics_loop] in Hrun.
    destruct m; try discriminate Hrun. cbn in Hrun.
    destruct (METRIC_SPECS_DICT E !! s) as [spec|] eqn:Hs; [|discriminate].
    cbn in Hrun. destruct (IH _ _ Hrun) as (names & -> & Hall).
    exists (s :: names). split; [reflexivity|].
    apply Forall_cons. split; [by exists spec|done].
Qed.

(** The call returns only for a list of names that are all keys of the
    table; then the state is untouched and every entry of the result is an
    entry of the table. *)
Theorem create_metrics_returns_known E st ms v st' :
  getitem (params (self st)) "metrics" = Ok (VList ms) ->
  create_metrics E st = (Ok v, st') ->
  st' = st /\
  exists names d,
    ms = VStr <$> names /\ Forall (known E) names /\ v = VDict d /\
    forall k spec,
      dict_get d k = Some spec -> METRIC_SPECS_DICT E !! k = Some spec.
Proof.
  intros Hmetrics. unfold create_metrics.
  rewrite bind_get_self, (bind_lift_ok _ _ _ _ Hmetrics).
  erewrite (bind_lift_ok (iterate _)) by reflexivity.
  destruct (metrics_loop E ms []) as [d|e] eqn:Hrun.
  - rewrite (bind_lift_ok _ _ _ _ eq_refl). intros Hret.
    inversion Hret; subst. split; [reflexivity|].
    destruct (metrics_loop_ok_inv E ms [] d Hrun) as (names & -> & Hall).
    exists names, d. repeat split; try done.
    intros k spec Hk.
    destruct (metrics_loop_known E names [] Hall) as (d' & Hrun' & Hget & _).
    assert (d' = d) as -> by congruence.
    rewrite Hget in Hk. by destruct (decide (k ∈ names)).
  - rewrite (bind_lift_raise _ _ _ _ eq_refl). discriminate.
Qed.

(** ** The further properties at work on the sample installation *)

Lemma locate_or_getattr_bare_name_witness :
  locate_or_getattr Fixture.env models (VStr "BasicSeq2Seq") =
    Ok (VClass "seq2seq.models.BasicSeq2Seq") /\
  locate_or_getattr Fixture.env hooks (VStr "BasicSeq2Seq") =
    Raise (AttributeError "BasicSeq2Seq").
Proof.
  split.
  - refine (locate_or_getattr_bare_name Fixture.env models "BasicSeq2Seq"
              VNone _ eq_refl eq_refl eq_refl).
    split; [reflexivity|done].
  - refine (locate_or_getattr_bare_name Fixture.env hooks "BasicSeq2Seq"
              VNone _ eq_refl eq_refl eq_refl).
    split; [reflexivity|done].
Defined.

Lemma locate_or_getattr_dotted_witness :
  locate_or_getattr Fixture.env models
      (VStr "seq2seq.training.hooks.MetadataCaptureHook") =
    Ok (VClass "seq2seq.training.hooks.MetadataCaptureHook").
Proof.
  refine (locate_or_getattr_dotted Fixture.env models
            ["seq2seq"; "training"; "hooks"] "MetadataCaptureHook"
            (VModule "seq2seq.training.hooks") _ _ _ _ eq_refl _
            eq_refl eq_refl).
  - done.
  - cbn [app].
    repeat (apply Forall_cons; split; [split; [reflexivity|done]|]).
    apply Forall_nil_2.
  - intros k Hk. destruct k as [|[|[|k]]]; [..|simpl in Hk; lia];
      eexists; split; reflexivity.
  - exists VNone. split; reflexivity.
Defined.

Lemma init_import_error_witness :
  __init__ Fixture.env_broken_import Fixture.by_attention_name =
    Raise (ErrorDuringImport "AttentionSeq2Seq") /\
  getattr Fixture.env_broken_import models "AttentionSeq2Seq" =
    Some (VClass "seq2seq.models.AttentionSeq2Seq").
Proof.
  split; [|reflexivity].
  refine (init_import_error Fixture.env_broken_import
            Fixture.by_attention_name
            (Fixture.merged_of Fixture.by_attention_name)
            "AttentionSeq2Seq" _ eq_refl eq_refl _ eq_refl).
  split; [reflexivity|done].
Defined.

Lemma init_then_create_model_witness :
  exists t,
    __init__ Fixture.env Fixture.by_name = Ok t /\
    forall n,
      create_model Fixture.env (VStr "eval") {| self := t; next_id := n |} =
        (Ok (VInstance "seq2seq.models.BasicSeq2Seq" n []
               [("params", VDict []); ("mode", VStr "eval")]),
         {| self := t; next_id := S n |}).
Proof.
  exact (init_then_create_model Fixture.env Fixture.by_name
           (Fixture.merged_of Fixture.by_name) "BasicSeq2Seq"
           "seq2seq.models.BasicSeq2Seq" (VDict []) (VStr "eval")
           eq_refl eq_refl eq_refl eq_refl eq_refl).
Defined.

Lemma create_training_hooks_model_dir_witness :
  create_training_hooks Fixture.env VNone (Fixture.with_hooks (VList [])) =
    (Ok (VList []), Fixture.with_hooks (VList [])) /\
  create_training_hooks Fixture.env VNone
      (Fixture.with_hooks (VList [Fixture.unknown_hook])) =
    (Raise (AttributeError "EarlyStoppingHook"),
     Fixture.with_hooks (VList [Fixture.unknown_hook])) /\
  create_training_hooks Fixture.env VNone
      (Fixture.with_hooks (VList [Fixture.hook_without_params])) =
    (Raise (KeyError (VStr "params")),
     Fixture.with_hooks (VList [Fixture.hook_without_params])) /\
  create_training_hooks Fixture.env VNone
      (Fixture.with_hooks (VList [Fixture.print_hook])) =
    (Raise (AttributeError "model_dir"),
     Fixture.with_hooks (VList [Fixture.print_hook])).
Proof.
  split; [|split; [|split]].
  - exact (proj1 (create_training_hooks_model_dir Fixture.env
             (Fixture.with_hooks (VList [])) VNone)
             (VList []) eq_refl eq_refl).
  - exact (proj1 (proj2 (create_training_hooks_model_dir Fixture.env
             (Fixture.with_hooks (VList [Fixture.unknown_hook])) VNone))
             Fixture.unknown_hook [] (AttributeError "EarlyStoppingHook")
             eq_refl eq_refl).
  - exact (proj1 (proj2 (proj2 (create_training_hooks_model_dir Fixture.env
             (Fixture.with_hooks (VList [Fixture.hook_without_params]))
             VNone)))
             Fixture.hook_without_params [] (VStr "PrintModelAnalysisHook")
             (VClass "seq2seq.training.hooks.PrintModelAnalysisHook")
             (KeyError (VStr "params")) eq_refl eq_refl eq_refl eq_refl).
  - exact (proj2 (proj2 (proj2 (create_training_hooks_model_dir Fixture.env
             (Fixture.with_hooks (VList [Fixture.print_hook])) VNone)))
             Fixture.print_hook [] (VStr "PrintModelAnalysisHook")
             (VClass "seq2seq.training.hooks.PrintModelAnalysisHook")
             (VDict []) eq_refl eq_refl eq_refl eq_refl eq_refl).
Defined.

Lemma create_training_hooks_bad_entry_witness :
  create_training_hooks Fixture.env Fixture.estimator
      (Fixture.with_hooks
         (VList [Fixture.print_hook; Fixture.unknown_hook;
                 Fixture.print_hook])) =
    (Raise (AttributeError "EarlyStoppingHook"),
     {| self := self (Fixture.with_hooks
                        (VList [Fixture.print_hook; Fixture.unknown_hook;
                                Fixture.print_hook]));
        next_id := 4 |}).
Proof.
  refine (create_training_hooks_bad_entry Fixture.env
            (Fixture.with_hooks
               (VList [Fixture.print_hook; Fixture.unknown_hook;
                       Fixture.print_hook]))
            Fixture.estimator (VStr "/tmp/model") [Fixture.print_hook]
            [("seq2seq.training.hooks.PrintModelAnalysisHook", VDict [])]
            Fixture.unknown_hook [Fixture.print_hook]
            (AttributeError "EarlyStoppingHook") eq_refl eq_refl _ eq_refl).
  apply Forall2_cons_2; [|apply Forall2_nil_2].
  exists "PrintModelAnalysisHook". repeat split; reflexivity.
Defined.

Lemma create_training_hooks_not_a_list_witness :
  create_training_hooks Fixture.env Fixture.estimator
      (Fixture.with_hooks Fixture.print_hook) =
    (Raise (TypeError "indices must be integers"),
     Fixture.with_hooks Fixture.print_hook).
Proof.
  refine (create_training_hooks_not_a_list Fixture.env
            (Fixture.with_hooks Fixture.print_hook) Fixture.estimator
            Fixture.print_hook eq_refl _).
  left. do 3 eexists. reflexivity.
Defined.

Lemma create_training_hooks_returns_all_witness :
  exists training_hooks,
    VList [
      VInstance "seq2seq.training.hooks.PrintModelAnalysisHook" 3
        [VDict []; VStr "/tmp/model"] [];
      VInstance "seq2seq.training.hooks.PrintModelAnalysisHook" 4
        [VDict []; VStr "/tmp/model"] []
    ] = VList training_hooks /\
    length training_hooks = 2.
Proof.
  exact (create_training_hooks_returns_all Fixture.env
           (Fixture.with_hooks
              (VList [Fixture.print_hook; Fixture.print_hook]))
           Fixture.estimator
           (VList [Fixture.print_hook; Fixture.print_hook])
           [Fixture.print_hook; Fixture.print_hook] _ _
           eq_refl eq_refl eq_refl).
Defined.

Lemma create_training_hooks_fresh_witness :
  exists training_hooks st',
    create_training_hooks Fixture.env Fixture.estimator
        (Fixture.with_hooks
           (VList [Fixture.print_hook; Fixture.print_hook])) =
      (Ok (VList training_hooks), st') /\
    NoDup training_hooks /\
    Forall (fun hook => exists id,
              identity hook = Some id /\ 3 <= id < next_id st')
      training_hooks.
Proof.
  refine (create_training_hooks_fresh Fixture.env
            (Fixture.with_hooks
               (VList [Fixture.print_hook; Fixture.print_hook]))
            Fixture.estimator (VStr "/tmp/model")
            [Fixture.print_hook; Fixture.print_hook]
            [("seq2seq.training.hooks.PrintModelAnalysisHook", VDict []);
             ("seq2seq.training.hooks.PrintModelAnalysisHook", VDict [])]
            eq_refl eq_refl _).
  repeat apply Forall2_cons_2; try apply Forall2_nil_2;
    exists "PrintModelAnalysisHook"; repeat split; reflexivity.
Defined.

Lemma create_training_hooks_defaults_witness :
  create_training_hooks Fixture.env Fixture.estimator Fixture.default_task =
    (Ok (VList [
       VInstance "seq2seq.training.hooks.PrintModelAnalysisHook" 0
         [VDict []; VStr "/tmp/model"] [];
       VInstance "seq2seq.training.hooks.MetadataCaptureHook" 1
         [VDict [("step", VInt 10)]; VStr "/tmp/model"] []
     ]),
     {| self := self Fixture.default_task; next_id := 2 |}).
Proof.
  refine (create_training_hooks_defaults Fixture.env Fixture.default_task
            Fixture.estimator (VStr "/tmp/model")
            "seq2seq.training.hooks.PrintModelAnalysisHook"
            "seq2seq.training.hooks.MetadataCaptureHook"
            eq_refl eq_refl _ _ eq_refl eq_refl).
  - repeat split; try done. exists VNone. split; reflexivity.
  - repeat split; try done. exists VNone. split; reflexivity.
Defined.

Lemma create_metrics_returns_known_witness :
  Fixture.configured ["bleu"] = Fixture.configured ["bleu"] /\
  exists names d,
    [VStr "bleu"] = VStr <$> names /\
    Forall (known Fixture.env) names /\
    VDict [("bleu", Fixture.metric "bleu")] = VDict d /\
    forall k spec,
      dict_get d k = Some spec ->
      METRIC_SPECS_DICT Fixture.env !! k = Some spec.
Proof.
  exact (create_metrics_returns_known Fixture.env (Fixture.configured ["bleu"])
           [VStr "bleu"] (VDict [("bleu", Fixture.metric "bleu")])
           (Fixture.configured ["bleu"]) eq_refl eq_refl).
Defined.

Lemma create_model_twice_witness :
  (first ← create_model Fixture.env (VStr "train");
   second ← create_model Fixture.env (VStr "eval");
   mret (first, second)) (Fixture.configured []) =
    (Ok (VInstance "seq2seq.models.BasicSeq2Seq" 3 []
           [("params", VDict [("embedding.dim", VInt 128)]);
            ("mode", VStr "train")],
         VInstance "seq2seq.models.BasicSeq2Seq" 4 []
           [("params", VDict [("embedding.dim", VInt 128)]);
            ("mode", VStr "eval")]),
     {| self := self (Fixture.configured []); next_id := 5 |}).
Proof.
  exact (create_model_twice Fixture.env (Fixture.configured [])
           (VStr "train") (VStr "eval") "seq2seq.models.BasicSeq2Seq"
           (VDict [("embedding.dim", VInt 128)])
           eq_refl eq_refl eq_refl eq_refl).
Defined.
